(** * Chat.js: the Chat wrapper component of stream-chat-react-native

    A shallow embedding of [src/components/Chat.js].  The component is a
    class with mutable fields ([props], [state], [unsubscribeNetInfo],
    [_unmounted]); its methods call out to three collaborators (the chat
    client, NetInfo, the offline storage) and to the logger.  Methods are
    embedded in a small state / writer / error monad: the state is the
    component instance, the written log is the sequence of calls made on the
    collaborators, the error is a JavaScript exception.  The instance also
    carries the part of the framework's state that [this.setState] depends
    on: whether a batch of updates is open, and what it has queued. *)

From Stdlib Require Import List String Bool ZArith.
Import ListNotations.
Open Scope string_scope.
Open Scope list_scope.

(** ** JavaScript values *)

(** The class of an object, as far as [instanceof LocalStorage] can tell. *)
Inductive ObjClass : Type :=
| LocalStorageClass
| PlainClass.

(** The values a prop, an event field or a channel handle can hold.  Numbers
    are only tested for truthiness here, so integers and [NaN] suffice. *)
Inductive JsVal : Type :=
| JsUndefined
| JsNull
| JsBool (b : bool)
| JsNum (n : Z)
| JsNaN
| JsStr (s : string)
| JsObj (c : ObjClass) (ref : nat).

(** ToBoolean: [undefined], [null], [false], [0], [NaN] and the empty string
    are falsy, everything else is truthy. *)
Definition truthy (v : JsVal) : bool :=
  match v with
  | JsUndefined => false
  | JsNull => false
  | JsBool b => b
  | JsNum n => negb (Z.eqb n 0)
  | JsNaN => false
  | JsStr s => negb (String.eqb s "")
  | JsObj _ _ => true
  end.

(** [v instanceof LocalStorage]. *)
Definition instanceofLocalStorage (v : JsVal) : bool :=
  match v with
  | JsObj LocalStorageClass _ => true
  | _ => false
  end.

(** [a && b], with [b] evaluated only when [a] is truthy. *)
Definition js_and (a : JsVal) (b : JsVal) : JsVal :=
  if truthy a then b else a.

(** The object literal [{}] the state starts with as its channel. *)
Definition empty_object : JsVal := JsObj PlainClass 0.

(** ** Props, state, instance *)

(** The client object: its identity and its [wsConnection] field, which is
    [None] while it is [null] or [undefined]. *)
Record Client : Type := mkClient {
  client_ref : nat;
  wsConnection : option nat
}.

(** [props.logger] is a function: the default [() => {}] or the caller's.
    Every method but the constructor starts by calling it, [render]
    included, so a component that was given something else never gets past
    its first render; the props of this development are those of
    components that do. *)
Inductive Logger : Type :=
| DefaultLogger
| UserLogger (ref : nat).

(** ToBoolean of [props.logger]: a function is truthy. *)
Definition logger_truthy (l : Logger) : bool :=
  match l with
  | DefaultLogger => true
  | UserLogger _ => true
  end.

Record Props : Type := mkProps {
  client : option Client;     (* None: null or undefined *)
  logger : Logger;
  storage : JsVal
}.

Record State : Type := mkState {
  channel : JsVal;
  startedOffline : bool;
  isOnline : JsVal;
  connectionRecovering : bool
}.

(** The three arrow functions the constructor hands to [client.on]. *)
Inductive Handler : Type :=
| connectionChangedHandler
| connectionEstablishedHandler
| connectionRecoveredHandler.

(** Modelled from the spec: NetInfo (imported from ../native) is not part of
    the source file; its [addEventListener] returns an unsubscribe handle,
    and [fetch] resolves to the current reachability. *)
Inductive Unsubscribe : Type :=
| NetInfoUnsubscribeHandle.

(** The last field belongs to the framework, not to the class: [None]
    outside a batch of updates, [Some q] inside one, [q] being the updates
    [this.setState] has queued so far, oldest first. *)
Record Instance : Type := mkInstance {
  props : Props;
  state : State;
  unsubscribeNetInfo : option Unsubscribe;   (* None: null *)
  _unmounted : option bool;                  (* None: not assigned yet *)
  batch : option (list (State -> State))
}.

Definition unmounted (i : Instance) : bool :=
  match _unmounted i with
  | Some b => b
  | None => false
  end.

(** ** Calls on the collaborators *)

Inductive Effect : Type :=
| ClientOn (name : string) (h : Handler)
| ClientOff (arg : JsVal)
| ClientSetupConnection
| OnlineStatusChanged (ws : nat) (type : string)
| StorageSetLogger (l : Logger)
| StorageClose
| LoggerCall (component : string) (event : string)
| NetInfoFetch
| NetInfoAddEventListener
| NetInfoUnsubscribe.

Inductive Error : Type :=
| StorageError (message : string)
| TypeError.

(** ** The method monad *)

Record Outcome (A : Type) : Type := mkOutcome {
  result : Error + A;
  after : Instance;
  calls : list Effect
}.
Arguments mkOutcome {A} _ _ _.
Arguments result {A} _.
Arguments after {A} _.
Arguments calls {A} _.

Definition M (A : Type) : Type := Instance -> Outcome A.

Definition ret {A : Type} (a : A) : M A :=
  fun i => mkOutcome (inr a) i [].

Definition bind {A B : Type} (m : M A) (k : A -> M B) : M B :=
  fun i =>
    match m i with
    | mkOutcome (inl e) i1 cs1 => mkOutcome (inl e) i1 cs1
    | mkOutcome (inr a) i1 cs1 =>
        match k a i1 with
        | mkOutcome r i2 cs2 => mkOutcome r i2 (cs1 ++ cs2)
        end
    end.

Definition throw {A : Type} (e : Error) : M A :=
  fun i => mkOutcome (inl e) i [].

Definition emit (e : Effect) : M unit :=
  fun i => mkOutcome (inr tt) i [e].

Definition this : M Instance :=
  fun i => mkOutcome (inr i) i [].

Definition assign (f : Instance -> Instance) : M unit :=
  fun i => mkOutcome (inr tt) (f i) [].

Notation "x <- c1 ;; c2" := (bind c1 (fun x => c2))
  (at level 61, c1 at next level, right associativity).
Notation "c1 ;; c2" := (bind c1 (fun _ => c2))
  (at level 61, right associativity).

(** ** Field updates *)

Definition set_state (s : State) (i : Instance) : Instance :=
  mkInstance (props i) s (unsubscribeNetInfo i) (_unmounted i) (batch i).

Definition set_unsubscribeNetInfo (u : option Unsubscribe) (i : Instance)
  : Instance :=
  mkInstance (props i) (state i) u (_unmounted i) (batch i).

Definition set_unmounted (b : bool) (i : Instance) : Instance :=
  mkInstance (props i) (state i) (unsubscribeNetInfo i) (Some b) (batch i).

Definition set_batch (b : option (list (State -> State))) (i : Instance)
  : Instance :=
  mkInstance (props i) (state i) (unsubscribeNetInfo i) (_unmounted i) b.

(** [this.setState(partial)], as the framework treats it.  The framework
    unmounts a component by calling [componentWillUnmount], which sets
    [_unmounted] before anything in it can fail, so the flag tells whether
    the component is still mounted.  An update of an unmounted component is
    dropped; inside a batch the update is queued and [this.state] is not
    touched until the batch ends; outside a batch it is merged at once.
    The re-render that follows a merge is the framework calling [render]
    and [componentDidUpdate]: the calls [Render] and [DidUpdate] below. *)
Definition setState (merge : State -> State) : M unit :=
  assign (fun i =>
    if unmounted i then i
    else match batch i with
         | Some q => set_batch (Some (q ++ [merge])) i
         | None => set_state (merge (state i)) i
         end).

(** The framework opens a batch around an event handler of its own. *)
Definition begin_batch (i : Instance) : Instance :=
  match batch i with
  | Some _ => i
  | None => set_batch (Some []) i
  end.

(** The end of a batch: the queued updates are merged in the order they
    were queued, unless the component was unmounted in the meantime, and
    the batch is closed. *)
Definition commit (i : Instance) : Instance :=
  match batch i with
  | Some q =>
      if unmounted i then set_batch None i
      else set_batch None
             (set_state (fold_left (fun s merge => merge s) q (state i)) i)
  | None => i
  end.

(** ** Calls through [this.props] *)

(** [this.props.logger('Chat component', event, {...})]. *)
Definition log (event : string) : M unit :=
  emit (LoggerCall "Chat component" event).

(** A method call on [this.props.client]: a TypeError when the client is
    [null] or [undefined]. *)
Definition on_client (e : Effect) : M unit :=
  i <- this ;;
  match client (props i) with
  | Some _ => emit e
  | None => throw TypeError
  end.

(** ** The methods of the class *)

Definition initial_state : State :=
  mkState empty_object true (JsStr "unknown") false.

Definition verifyStorage : M unit :=
  i <- this ;;
  if negb (truthy (storage (props i))) then ret tt
  else if truthy (storage (props i))
          && instanceofLocalStorage (storage (props i)) then ret tt
  else throw (StorageError "Invalid storage class provided to Chat component").

Definition isOfflineModeEnabled (i : Instance) : JsVal :=
  js_and (storage (props i))
         (JsBool (instanceofLocalStorage (storage (props i)))).

Definition notifyChatClient (isConnected : bool) : M unit :=
  i <- this ;;
  match client (props i) with
  | Some c =>
      match wsConnection c with
      | Some ws =>
          if isConnected then emit (OnlineStatusChanged ws "online")
          else emit (OnlineStatusChanged ws "offline")
      | None => ret tt
      end
  | None => ret tt
  end.

(** The handler of ['connection.changed']; [online] is [event.online]. *)
Definition onConnectionChanged (online : bool) : M unit :=
  i <- this ;;
  if unmounted i then ret tt
  else setState (fun s =>
         mkState (channel s) (startedOffline s) (JsBool online) (negb online)).

(** The handler of ['connection.established']. *)
Definition onConnectionEstablished : M unit :=
  i <- this ;;
  if unmounted i then ret tt
  else setState (fun s =>
         mkState (channel s) (startedOffline s) (JsBool true) false).

(** The handler of ['connection.recovered']. *)
Definition onConnectionRecovered : M unit :=
  i <- this ;;
  if unmounted i then ret tt
  else setState (fun s =>
         mkState (channel s) (startedOffline s) (JsBool true) false).

(** The blank object the constructor starts from. *)
Definition blank (p : Props) : Instance :=
  mkInstance p initial_state None None None.

Definition constructor_body : M unit :=
  assign (set_state initial_state) ;;
  assign (set_unsubscribeNetInfo None) ;;
  on_client (ClientOn "connection.changed" connectionChangedHandler) ;;
  on_client (ClientOn "connection.established" connectionEstablishedHandler) ;;
  on_client (ClientOn "connection.recovered" connectionRecoveredHandler) ;;
  verifyStorage ;;
  (i <- this ;;
   if truthy (storage (props i)) && logger_truthy (logger (props i))
   then emit (StorageSetLogger (logger (props i)))
   else ret tt) ;;
  assign (set_unmounted false).

Definition constructor (p : Props) : Outcome unit :=
  constructor_body (blank p).

(** [NetInfo.fetch().then(k)]: the call is made now, [k] runs later as
    [onNetInfoFetched]. *)
Definition setConnectionListener : M unit :=
  emit NetInfoFetch.

(** The continuation of [NetInfo.fetch()]. *)
Definition onNetInfoFetched (isConnected : bool) : M unit :=
  setState (fun s =>
    mkState (channel s) (negb isConnected) (JsBool isConnected)
            (connectionRecovering s)) ;;
  notifyChatClient isConnected ;;
  emit NetInfoAddEventListener ;;
  assign (set_unsubscribeNetInfo (Some NetInfoUnsubscribeHandle)).

(** The listener handed to [NetInfo.addEventListener]. *)
Definition onNetInfoChanged (isConnected : bool) : M unit :=
  i <- this ;;
  if isConnected && startedOffline (state i)
  then on_client ClientSetupConnection
  else notifyChatClient isConnected.

Definition componentDidMount : M unit :=
  setConnectionListener ;;
  log "componentDidMount".

Definition componentDidUpdate : M unit :=
  log "componentDidUpdate".

Definition componentWillUnmount : M unit :=
  log "componentWillUnmount" ;;
  assign (set_unmounted true) ;;
  on_client (ClientOff (JsStr "connection.recovered")) ;;
  on_client (ClientOff (JsStr "connection.changed")) ;;
  on_client (ClientOff JsUndefined) ;;          (* this.handleEvent *)
  (i <- this ;;
   match unsubscribeNetInfo i with
   | Some _ => emit NetInfoUnsubscribe
   | None => throw TypeError
   end) ;;
  (i <- this ;;
   if truthy (isOfflineModeEnabled i) then emit StorageClose else ret tt).

Definition setActiveChannel (ch : JsVal) : M unit :=
  log "setActiveChannel" ;;
  i <- this ;;
  if unmounted i then ret tt
  else setState (fun s =>
         mkState ch (startedOffline s) (isOnline s) (connectionRecovering s)).

Record Context : Type := mkContext {
  ctx_client : option Client;
  ctx_channel : JsVal;
  ctx_isOnline : JsVal;
  ctx_connectionRecovering : bool;
  ctx_storage : JsVal;
  ctx_logger : Logger;
  ctx_offlineMode : JsVal
}.

(** The [setActiveChannel] field of the context is the method above. *)
Definition getContext (i : Instance) : Context :=
  mkContext (client (props i)) (channel (state i)) (isOnline (state i))
            (connectionRecovering (state i)) (storage (props i))
            (logger (props i)) (isOfflineModeEnabled i).

Definition render : M Context :=
  log "Rerendering" ;;
  i <- this ;;
  ret (getContext i).

(** ** The component in its environment *)

(** What can happen to a constructed component: the framework runs a
    lifecycle method or renders, the client delivers an event to one of the
    three handlers, NetInfo resolves the fetch or reports a change, a
    consumer calls [setActiveChannel] from the context, or the client object
    (shared with the rest of the application) replaces its [wsConnection]. *)
Inductive Call : Type :=
| ConnectionChanged (online : bool)
| ConnectionEstablished
| ConnectionRecovered
| NetInfoFetched (isConnected : bool)
| NetInfoChanged (isConnected : bool)
| SetActiveChannel (ch : JsVal)
| DidMount
| DidUpdate
| WillUnmount
| Render
| WsConnectionSet (ws : option nat).

Definition set_wsConnection (ws : option nat) (i : Instance) : Instance :=
  match client (props i) with
  | Some c =>
      mkInstance
        (mkProps (Some (mkClient (client_ref c) ws))
                 (logger (props i)) (storage (props i)))
        (state i) (unsubscribeNetInfo i) (_unmounted i) (batch i)
  | None => i
  end.

Definition fire (c : Call) : M unit :=
  match c with
  | ConnectionChanged online => onConnectionChanged online
  | ConnectionEstablished => onConnectionEstablished
  | ConnectionRecovered => onConnectionRecovered
  | NetInfoFetched isConnected => onNetInfoFetched isConnected
  | NetInfoChanged isConnected => onNetInfoChanged isConnected
  | SetActiveChannel ch => setActiveChannel ch
  | DidMount => componentDidMount
  | DidUpdate => componentDidUpdate
  | WillUnmount => componentWillUnmount
  | Render => render ;; ret tt
  | WsConnectionSet ws => assign (set_wsConnection ws)
  end.

(** A sequence of calls.  An exception raised by one call goes to whoever
    made it (the framework, the event emitter, the promise); the instance
    keeps whatever the call had assigned before raising, and later calls
    still arrive. *)
Fixpoint run (cs : list Call) (i : Instance) : Instance * list Effect :=
  match cs with
  | [] => (i, [])
  | c :: cs' =>
      let o := fire c i in
      let r := run cs' (after o) in
      (fst r, calls o ++ snd r)
  end.

Definition is_fetched (c : Call) : bool :=
  match c with
  | NetInfoFetched _ => true
  | _ => false
  end.

Definition is_unmount (c : Call) : bool :=
  match c with
  | WillUnmount => true
  | _ => false
  end.

(** The events of the client that the three handlers listen to. *)
Definition is_connectivity_event (c : Call) : bool :=
  match c with
  | ConnectionChanged _ => true
  | ConnectionEstablished => true
  | ConnectionRecovered => true
  | _ => false
  end.

(** The most recent connectivity event of a sequence, [acc] when it has
    none. *)
Fixpoint most_recent_event (cs : list Call) (acc : option Call)
  : option Call :=
  match cs with
  | [] => acc
  | c :: cs' =>
      most_recent_event cs' (if is_connectivity_event c then Some c else acc)
  end.

(** The status notification [notifyChatClient] sends for a reachability. *)
Definition notification (i : Instance) (isConnected : bool) : list Effect :=
  match client (props i) with
  | Some c =>
      match wsConnection c with
      | Some ws =>
          [OnlineStatusChanged ws (if isConnected then "online" else "offline")]
      | None => []
      end
  | None => []
  end.

Definition has_client (i : Instance) : bool :=
  match client (props i) with
  | Some _ => true
  | None => false
  end.

(** ** Sample inputs and expected call sequences *)

(** A constructed, mounted instance and a torn-down one, for the examples. *)
Definition sample_client : Client := mkClient 1 (Some 2).

Definition sample_props (sto : JsVal) : Props :=
  mkProps (Some sample_client) DefaultLogger sto.

Definition sample_mounted : Instance :=
  mkInstance (sample_props JsUndefined) initial_state
             (Some NetInfoUnsubscribeHandle) (Some false) None.

Definition sample_unmounted : Instance :=
  mkInstance (sample_props JsUndefined) initial_state
             (Some NetInfoUnsubscribeHandle) (Some true) None.

(** The mounted instance inside an event handler of the framework. *)
Definition sample_batched : Instance := begin_batch sample_mounted.

(** The three registrations the constructor starts with. *)
Definition registrations : list Effect :=
  [ClientOn "connection.changed" connectionChangedHandler;
   ClientOn "connection.established" connectionEstablishedHandler;
   ClientOn "connection.recovered" connectionRecoveredHandler].

Definition invalid_storage : Error :=
  StorageError "Invalid storage class provided to Chat component".

(** The calls [componentWillUnmount] makes before it reaches
    [this.unsubscribeNetInfo()]. *)
Definition teardown_prefix : list Effect :=
  [LoggerCall "Chat component" "componentWillUnmount";
   ClientOff (JsStr "connection.recovered");
   ClientOff (JsStr "connection.changed");
   ClientOff JsUndefined].

(** A whole life of the component: constructed without storage, mounted,
    reachability fetched, torn down. *)
Definition sample_life : Instance * list Effect :=
  run [DidMount; NetInfoFetched true; WillUnmount]
      (after (constructor (sample_props JsUndefined))).

(** The value of [connectionRecovering] a most recent event stands for. *)
Definition recovering_after (e : option Call) : bool :=
  match e with
  | Some (ConnectionChanged false) => true
  | _ => false
  end.

(** ** Summaries of a sequence of calls *)

(** The argument of the most recent [setActiveChannel], [acc] when there is
    none. *)
Fixpoint last_channel (cs : list Call) (acc : JsVal) : JsVal :=
  match cs with
  | [] => acc
  | SetActiveChannel ch :: cs' => last_channel cs' ch
  | _ :: cs' => last_channel cs' acc
  end.

(** What a call writes to [isOnline]: the three handlers and the continuation
    of the fetch write it, nothing else does. *)
Definition online_after (c : Call) (acc : JsVal) : JsVal :=
  match c with
  | ConnectionChanged online => JsBool online
  | ConnectionEstablished => JsBool true
  | ConnectionRecovered => JsBool true
  | NetInfoFetched isConnected => JsBool isConnected
  | _ => acc
  end.

Fixpoint last_online (cs : list Call) (acc : JsVal) : JsVal :=
  match cs with
  | [] => acc
  | c :: cs' => last_online cs' (online_after c acc)
  end.

(** The fetch resolving to [true]. *)
Definition is_fetched_online (c : Call) : bool :=
  match c with
  | NetInfoFetched true => true
  | _ => false
  end.

(** The methods that start with a call of [props.logger]. *)
Definition is_logged (c : Call) : bool :=
  match c with
  | SetActiveChannel _ => true
  | DidMount => true
  | DidUpdate => true
  | WillUnmount => true
  | Render => true
  | _ => false
  end.

Definition is_logger_call (e : Effect) : bool :=
  match e with
  | LoggerCall _ _ => true
  | _ => false
  end.

Definition logger_calls (es : list Effect) : nat :=
  List.length (filter is_logger_call es).

(** What the reachability listener does for one change while
    [startedOffline] is true. *)
Definition started_offline_calls (i : Instance) (isConnected : bool)
  : list Effect :=
  if isConnected then [ClientSetupConnection] else notification i false.

(** [connectionRecovering] only while [isOnline] is [false]. *)
Definition recovering_implies_offline (s : State) : Prop :=
  connectionRecovering s = true -> isOnline s = JsBool false.

(** * Proofs *)

Ltac unfold_methods :=
  unfold fire, constructor, constructor_body, componentWillUnmount,
    componentDidMount, componentDidUpdate, setConnectionListener, render,
    onConnectionChanged, onConnectionEstablished, onConnectionRecovered,
    onNetInfoFetched, onNetInfoChanged, setActiveChannel, notifyChatClient,
    verifyStorage, on_client, log, setState, bind, ret, throw, emit, this,
    assign, notification, has_client, unmounted, isOfflineModeEnabled,
    js_and, set_wsConnection, set_batch, set_state in *.

Ltac split_ifs :=
  repeat match goal with
         | |- context [if ?x && _ then _ else _] => destruct x; cbn
         | |- context [if ?b then _ else _] =>
             match type of b with
             | bool => destruct b; cbn
             end
         end.

Ltac destruct_instance i :=
  let cl := fresh "cl" in
  let lg := fresh "lg" in
  let sto := fresh "sto" in
  let st := fresh "st" in
  let u := fresh "u" in
  let um := fresh "um" in
  let bt := fresh "bt" in
  destruct i as [[cl lg sto] st u um bt];
  destruct cl as [[? [?|]]|]; destruct u as [?|]; destruct um as [[|]|];
  destruct bt as [?|].

Lemma logger_is_truthy (l : Logger) : logger_truthy l = true.
Proof.
  destruct l; reflexivity.
Qed.

(** ** Frame lemmas: which fields a call can touch *)

Lemma fire_has_client (c : Call) (i : Instance) :
  has_client (after (fire c i)) = has_client i.
Proof.
  destruct c; destruct_instance i; unfold_methods; cbn; split_ifs;
    reflexivity.
Qed.

Lemma run_has_client (cs : list Call) (i : Instance) :
  has_client (fst (run cs i)) = has_client i.
Proof.
  revert i; induction cs as [|c cs IH]; intro i; cbn.
  - reflexivity.
  - rewrite IH. apply fire_has_client.
Qed.

(** ** notifyChatClient *)

Lemma notifyChatClient_outcome (isConnected : bool) (i : Instance) :
  notifyChatClient isConnected i =
  mkOutcome (inr tt) i (notification i isConnected).
Proof.
  unfold notifyChatClient, notification, bind, this, ret, emit; cbn.
  destruct (client (props i)) as [c|]; cbn; [|reflexivity].
  destruct (wsConnection c) as [ws|]; cbn; [|reflexivity].
  destruct isConnected; reflexivity.
Qed.

(** C10: [notifyChatClient] never raises and leaves the instance as it is;
    it calls [wsConnection.onlineStatusChanged] exactly when both the client
    and its [wsConnection] are non-null, with type "online" for a reachable
    network and "offline" otherwise, and makes no call at all when either of
    them is null. *)
Theorem notifyChatClient_sends_iff_connection (isConnected : bool)
    (i : Instance) :
  result (notifyChatClient isConnected i) = inr tt
  /\ after (notifyChatClient isConnected i) = i
  /\ calls (notifyChatClient isConnected i) =
       match client (props i) with
       | Some c =>
           match wsConnection c with
           | Some ws =>
               [OnlineStatusChanged ws
                  (if isConnected then "online" else "offline")]
           | None => []
           end
       | None => []
       end.
Proof.
  rewrite notifyChatClient_outcome; cbn. repeat split.
Qed.

(** ** setActiveChannel and getContext *)

Lemma setActiveChannel_mounted (ch : JsVal) (i : Instance) :
  unmounted i = false ->
  setActiveChannel ch i =
  mkOutcome (inr tt)
    (match batch i with
     | Some q =>
         set_batch
           (Some (q ++ [fun s => mkState ch (startedOffline s) (isOnline s)
                                         (connectionRecovering s)])) i
     | None =>
         set_state (mkState ch (startedOffline (state i)) (isOnline (state i))
                            (connectionRecovering (state i))) i
     end)
    [LoggerCall "Chat component" "setActiveChannel"].
Proof.
  intro H. unfold setActiveChannel, log, setState, bind, this, ret, emit,
    assign; cbn. rewrite H; cbn. rewrite H; reflexivity.
Qed.

Lemma setActiveChannel_unmounted (ch : JsVal) (i : Instance) :
  unmounted i = true ->
  setActiveChannel ch i =
  mkOutcome (inr tt) i [LoggerCall "Chat component" "setActiveChannel"].
Proof.
  intro H. unfold setActiveChannel, log, setState, bind, this, ret, emit,
    assign; cbn. rewrite H; reflexivity.
Qed.

(** C7, amended: while teardown has not begun, [setActiveChannel ch] returns
    normally and, once its update is committed, the context has [ch] as its
    channel, for every handle [ch] (a non-null one in particular); outside a
    batch the update is committed by the call itself, so the context read
    right after it has [ch] already, the other fields of the state being
    kept.  Once teardown has begun, the call leaves the instance as it
    was. *)
Theorem setActiveChannel_committed_channel (ch : JsVal) (i : Instance) :
  (unmounted i = false ->
     ch <> JsNull ->
     result (setActiveChannel ch i) = inr tt
     /\ ctx_channel (getContext (commit (after (setActiveChannel ch i)))) = ch
     /\ (batch i = None ->
         ctx_channel (getContext (after (setActiveChannel ch i))) = ch
         /\ ctx_isOnline (getContext (after (setActiveChannel ch i)))
            = isOnline (state i)
         /\ ctx_connectionRecovering
              (getContext (after (setActiveChannel ch i)))
            = connectionRecovering (state i)))
  /\ (unmounted i = true -> after (setActiveChannel ch i) = i).
Proof.
  split.
  - intros H _. rewrite (setActiveChannel_mounted ch i H); cbn [result after].
    split; [reflexivity|]. split.
    + destruct i as [pr st u um [q|]]; unfold unmounted in H; cbn in H.
      * unfold commit, unmounted; cbn. rewrite H; cbn.
        rewrite fold_left_app; reflexivity.
      * reflexivity.
    + intros ->. repeat split.
  - intro H. rewrite (setActiveChannel_unmounted ch i H); reflexivity.
Qed.

Lemma setActiveChannel_committed_channel_witness :
  ctx_channel
    (getContext
       (commit (after (setActiveChannel (JsObj PlainClass 7) sample_batched))))
  = JsObj PlainClass 7
  /\ ctx_channel
       (getContext (after (setActiveChannel (JsObj PlainClass 7)
                                            sample_mounted)))
     = JsObj PlainClass 7
  /\ after (setActiveChannel (JsObj PlainClass 7) sample_unmounted)
     = sample_unmounted.
Proof.
  split; [|split].
  - apply (proj1 (setActiveChannel_committed_channel
                    (JsObj PlainClass 7) sample_batched)).
    + reflexivity.
    + discriminate.
  - apply (proj1 (setActiveChannel_committed_channel
                    (JsObj PlainClass 7) sample_mounted)).
    + reflexivity.
    + discriminate.
    + reflexivity.
  - apply (proj2 (setActiveChannel_committed_channel
                    (JsObj PlainClass 7) sample_unmounted)).
    reflexivity.
Defined.

(** C7 as stated fails inside a batch: the component is mounted, the handle
    is not null, [setActiveChannel] returns normally, and the context read
    right after it still has the channel of before, the empty object. *)
Lemma setActiveChannel_deferred_in_batch :
  unmounted sample_batched = false
  /\ JsObj PlainClass 7 <> JsNull
  /\ result (setActiveChannel (JsObj PlainClass 7) sample_batched) = inr tt
  /\ ctx_channel
       (getContext (after (setActiveChannel (JsObj PlainClass 7)
                                            sample_batched)))
     = empty_object
  /\ empty_object <> JsObj PlainClass 7.
Proof.
  repeat split; try reflexivity; discriminate.
Qed.

(** ** The constructor *)

Lemma constructor_without_client (p : Props) :
  client p = None ->
  constructor p = mkOutcome (inl TypeError) (blank p) [].
Proof.
  destruct p as [cl lg sto]; cbn; intros ->. reflexivity.
Qed.

Lemma constructor_falsy_storage (p : Props) (c : Client) :
  client p = Some c ->
  truthy (storage p) = false ->
  constructor p =
  mkOutcome (inr tt) (mkInstance p initial_state None (Some false) None)
            registrations.
Proof.
  destruct p as [cl lg sto]; cbn; intros -> H.
  unfold constructor, constructor_body, verifyStorage, on_client, bind, this,
    assign, emit, ret, throw; cbn.
  repeat (rewrite H; cbn). reflexivity.
Qed.

Lemma constructor_local_storage (p : Props) (c : Client) :
  client p = Some c ->
  truthy (storage p) = true ->
  instanceofLocalStorage (storage p) = true ->
  constructor p =
  mkOutcome (inr tt) (mkInstance p initial_state None (Some false) None)
            (registrations ++ [StorageSetLogger (logger p)]).
Proof.
  destruct p as [cl lg sto]; cbn; intros -> H1 H2.
  unfold constructor, constructor_body, verifyStorage, on_client, bind, this,
    assign, emit, ret, throw; cbn.
  repeat (rewrite ?H1, ?H2, ?logger_is_truthy; progress cbn). reflexivity.
Qed.

Lemma constructor_invalid_storage (p : Props) (c : Client) :
  client p = Some c ->
  truthy (storage p) = true ->
  instanceofLocalStorage (storage p) = false ->
  constructor p =
  mkOutcome (inl invalid_storage) (mkInstance p initial_state None None None)
            registrations.
Proof.
  destruct p as [cl lg sto]; cbn; intros -> H1 H2.
  unfold constructor, constructor_body, verifyStorage, on_client, bind, this,
    assign, emit, ret, throw; cbn.
  repeat (rewrite ?H1, ?H2; progress cbn). reflexivity.
Qed.

(** Whatever the props, a constructor that returns has built this instance. *)
Lemma constructor_success (p : Props) :
  result (constructor p) = inr tt ->
  after (constructor p) = mkInstance p initial_state None (Some false) None
  /\ exists c, client p = Some c.
Proof.
  destruct (client p) as [c|] eqn:Hc.
  - destruct (truthy (storage p)) eqn:Ht.
    + destruct (instanceofLocalStorage (storage p)) eqn:Hi.
      * rewrite (constructor_local_storage p c Hc Ht Hi); cbn; eauto.
      * rewrite (constructor_invalid_storage p c Hc Ht Hi); cbn; discriminate.
    + rewrite (constructor_falsy_storage p c Hc Ht); cbn; eauto.
  - rewrite (constructor_without_client p Hc); cbn; discriminate.
Qed.

(** C4, amended: given the required client, construction raises the invalid
    storage error exactly for a truthy storage that is not a LocalStorage
    instance; for every falsy storage (none passed, [null], [false], [0],
    the empty string) it returns normally and the context's [offlineMode] is
    that falsy storage value itself. *)
Theorem constructor_storage_check (p : Props) (c : Client) :
  client p = Some c ->
  (truthy (storage p) = true ->
     instanceofLocalStorage (storage p) = false ->
     result (constructor p) = inl invalid_storage)
  /\ (truthy (storage p) = false ->
        result (constructor p) = inr tt
        /\ ctx_offlineMode (getContext (after (constructor p))) = storage p
        /\ truthy (ctx_offlineMode (getContext (after (constructor p))))
           = false).
Proof.
  intro Hc; split.
  - intros Ht Hi. rewrite (constructor_invalid_storage p c Hc Ht Hi).
    reflexivity.
  - intro Ht. rewrite (constructor_falsy_storage p c Hc Ht); cbn.
    unfold isOfflineModeEnabled, js_and; cbn. rewrite Ht. auto.
Qed.

Lemma constructor_storage_check_witness :
  result (constructor (sample_props (JsStr "async-storage")))
  = inl invalid_storage
  /\ result (constructor (sample_props JsUndefined)) = inr tt.
Proof.
  split.
  - apply (proj1 (constructor_storage_check
                    (sample_props (JsStr "async-storage")) sample_client
                    eq_refl)); reflexivity.
  - apply (proj2 (constructor_storage_check
                    (sample_props JsUndefined) sample_client eq_refl)).
    reflexivity.
Defined.

(** C4 as stated fails twice: [false] and [0] are storage arguments that are
    not LocalStorage instances, yet construction with them returns normally;
    and without a storage argument [offlineMode] is [undefined], what
    [storage && ...] evaluates to, not [false]. *)
Lemma constructor_accepts_falsy_storage :
  JsBool false <> JsUndefined
  /\ instanceofLocalStorage (JsBool false) = false
  /\ result (constructor (sample_props (JsBool false))) = inr tt
  /\ instanceofLocalStorage (JsNum 0) = false
  /\ result (constructor (sample_props (JsNum 0))) = inr tt
  /\ ctx_offlineMode
       (getContext (after (constructor (sample_props JsUndefined))))
     = JsUndefined
  /\ JsUndefined <> JsBool false.
Proof.
  repeat split; try reflexivity; discriminate.
Qed.

(** C8: when the storage is invalid the constructor raises after it has made
    the three [client.on] registrations, and it has made no other call, so
    none of them is taken back; the flag [_unmounted] is still unassigned. *)
Theorem constructor_not_atomic (p : Props) (c : Client) :
  client p = Some c ->
  truthy (storage p) = true ->
  instanceofLocalStorage (storage p) = false ->
  result (constructor p) = inl invalid_storage
  /\ calls (constructor p) =
       [ClientOn "connection.changed" connectionChangedHandler;
        ClientOn "connection.established" connectionEstablishedHandler;
        ClientOn "connection.recovered" connectionRecoveredHandler]
  /\ (forall arg, ~ In (ClientOff arg) (calls (constructor p)))
  /\ _unmounted (after (constructor p)) = None.
Proof.
  intros Hc Ht Hi. rewrite (constructor_invalid_storage p c Hc Ht Hi); cbn.
  repeat split. intros arg [H|[H|[H|[]]]]; discriminate.
Qed.

Lemma constructor_not_atomic_witness :
  result (constructor (sample_props (JsObj PlainClass 5)))
  = inl invalid_storage
  /\ calls (constructor (sample_props (JsObj PlainClass 5))) = registrations.
Proof.
  split;
    apply (constructor_not_atomic (sample_props (JsObj PlainClass 5))
             sample_client eq_refl eq_refl eq_refl).
Defined.

(** ** Teardown *)

Lemma componentWillUnmount_subscribed (i : Instance) (c : Client)
    (u : Unsubscribe) :
  client (props i) = Some c ->
  unsubscribeNetInfo i = Some u ->
  componentWillUnmount i =
  mkOutcome (inr tt) (set_unmounted true i)
    (teardown_prefix ++ [NetInfoUnsubscribe]
       ++ (if truthy (isOfflineModeEnabled i) then [StorageClose] else [])).
Proof.
  destruct i as [[cl lg sto] st un um]; cbn; intros -> ->.
  unfold componentWillUnmount, on_client, log, bind, this, assign, emit, ret,
    throw, isOfflineModeEnabled, js_and; cbn.
  destruct (truthy sto) eqn:Ht; cbn; rewrite ?Ht; cbn;
    [destruct (instanceofLocalStorage sto)|]; reflexivity.
Qed.

Lemma componentWillUnmount_not_subscribed (i : Instance) (c : Client) :
  client (props i) = Some c ->
  unsubscribeNetInfo i = None ->
  componentWillUnmount i =
  mkOutcome (inl TypeError) (set_unmounted true i) teardown_prefix.
Proof.
  destruct i as [[cl lg sto] st un um]; cbn; intros -> ->. reflexivity.
Qed.

Lemma componentWillUnmount_without_client (i : Instance) :
  client (props i) = None ->
  componentWillUnmount i =
  mkOutcome (inl TypeError) (set_unmounted true i)
            [LoggerCall "Chat component" "componentWillUnmount"].
Proof.
  destruct i as [[cl lg sto] st un um]; cbn; intros ->. reflexivity.
Qed.

(** Every call teardown can make. *)
Lemma componentWillUnmount_calls_among (i : Instance) (e : Effect) :
  In e (calls (componentWillUnmount i)) ->
  In e (teardown_prefix ++ [NetInfoUnsubscribe; StorageClose]).
Proof.
  destruct (client (props i)) as [c|] eqn:Hc.
  - destruct (unsubscribeNetInfo i) as [u|] eqn:Hu.
    + rewrite (componentWillUnmount_subscribed i c u Hc Hu).
      destruct (truthy (isOfflineModeEnabled i)); cbn; intuition.
    + rewrite (componentWillUnmount_not_subscribed i c Hc Hu).
      cbn; intuition.
  - rewrite (componentWillUnmount_without_client i Hc). cbn; intuition.
Qed.

(** C2, what the code does instead: no teardown ever calls
    [client.off] for ['connection.established'].  The third [off] is given
    [this.handleEvent], which the class never defines, so the observer of
    'connection.established' stays registered; the calls of a whole life
    show it. *)
Theorem componentWillUnmount_keeps_established_observer :
  (forall i : Instance,
     ~ In (ClientOff (JsStr "connection.established"))
          (calls (componentWillUnmount i)))
  /\ snd sample_life =
       [NetInfoFetch;
        LoggerCall "Chat component" "componentDidMount";
        OnlineStatusChanged 2 "online";
        NetInfoAddEventListener;
        LoggerCall "Chat component" "componentWillUnmount";
        ClientOff (JsStr "connection.recovered");
        ClientOff (JsStr "connection.changed");
        ClientOff JsUndefined;
        NetInfoUnsubscribe]
  /\ In (ClientOn "connection.established" connectionEstablishedHandler)
        (calls (constructor (sample_props JsUndefined))).
Proof.
  split; [|split].
  - intros i H. apply componentWillUnmount_calls_among in H.
    cbn in H. intuition discriminate.
  - reflexivity.
  - cbn; auto.
Qed.

(** ** What a call can change *)

(** Only the continuation of the fetch writes [startedOffline] and
    [unsubscribeNetInfo]. *)
Lemma fire_keeps_mount_fields (c : Call) (i : Instance) :
  is_fetched c = false ->
  startedOffline (state (after (fire c i))) = startedOffline (state i)
  /\ unsubscribeNetInfo (after (fire c i)) = unsubscribeNetInfo i.
Proof.
  intro H. destruct c; try discriminate H;
    destruct_instance i; destruct st as [sc so io cr];
    unfold_methods; cbn; split_ifs; auto.
Qed.

Lemma run_keeps_mount_fields (cs : list Call) (i : Instance) :
  forallb (fun c => negb (is_fetched c)) cs = true ->
  startedOffline (state (fst (run cs i))) = startedOffline (state i)
  /\ unsubscribeNetInfo (fst (run cs i)) = unsubscribeNetInfo i.
Proof.
  revert i; induction cs as [|c cs IH]; intros i H; cbn in *.
  - auto.
  - apply andb_prop in H as [Hc Hcs].
    apply negb_true_iff in Hc.
    destruct (IH (after (fire c i)) Hcs) as [IH1 IH2].
    destruct (fire_keeps_mount_fields c i Hc) as [F1 F2].
    rewrite IH1, IH2; auto.
Qed.

(** Once the flag is set it stays set, and every call but the continuation
    of the fetch leaves the state alone. *)
Lemma fire_after_teardown (c : Call) (i : Instance) :
  unmounted i = true ->
  unmounted (after (fire c i)) = true
  /\ (is_fetched c = false -> state (after (fire c i)) = state i).
Proof.
  intro H. destruct c; destruct_instance i; try discriminate H;
    destruct st as [sc so io cr];
    unfold_methods; cbn; split_ifs; split; auto; discriminate.
Qed.

Lemma run_after_teardown (cs : list Call) (i : Instance) :
  unmounted i = true ->
  forallb (fun c => negb (is_fetched c)) cs = true ->
  unmounted (fst (run cs i)) = true /\ state (fst (run cs i)) = state i.
Proof.
  revert i; induction cs as [|c cs IH]; intros i Hu H; cbn in *.
  - auto.
  - apply andb_prop in H as [Hc Hcs].
    apply negb_true_iff in Hc.
    destruct (fire_after_teardown c i Hu) as [F1 F2].
    destruct (IH (after (fire c i)) F1 Hcs) as [IH1 IH2].
    rewrite IH1, IH2, (F2 Hc); auto.
Qed.

(** While the component is mounted and no batch is open, both stay so under
    every call but teardown. *)
Lemma fire_stays_mounted (c : Call) (i : Instance) :
  unmounted i = false ->
  is_unmount c = false ->
  unmounted (after (fire c i)) = false.
Proof.
  intros Hu Hc. destruct c; try discriminate Hc;
    destruct_instance i; try discriminate Hu;
    destruct st as [sc so io cr];
    unfold_methods; cbn; split_ifs; reflexivity.
Qed.

Lemma fire_keeps_batch_closed (c : Call) (i : Instance) :
  batch i = None -> batch (after (fire c i)) = None.
Proof.
  intro Hb. destruct c; destruct_instance i; try discriminate Hb;
    destruct st as [sc so io cr];
    unfold_methods; cbn; split_ifs; reflexivity.
Qed.

Lemma run_stays_mounted (cs : list Call) (i : Instance) :
  unmounted i = false ->
  batch i = None ->
  forallb (fun c => negb (is_unmount c)) cs = true ->
  unmounted (fst (run cs i)) = false /\ batch (fst (run cs i)) = None.
Proof.
  revert i; induction cs as [|c cs IH]; intros i Hu Hb H; cbn in *.
  - auto.
  - apply andb_prop in H as [Hc Hcs].
    apply negb_true_iff in Hc.
    apply IH; auto using fire_stays_mounted, fire_keeps_batch_closed.
Qed.

(** The flag is set by every teardown, also by one that raises. *)
Lemma componentWillUnmount_sets_flag (i : Instance) :
  unmounted (after (componentWillUnmount i)) = true
  /\ state (after (componentWillUnmount i)) = state i.
Proof.
  destruct (client (props i)) as [c|] eqn:Hc.
  - destruct (unsubscribeNetInfo i) as [u|] eqn:Hu.
    + rewrite (componentWillUnmount_subscribed i c u Hc Hu); auto.
    + rewrite (componentWillUnmount_not_subscribed i c Hc Hu); auto.
  - rewrite (componentWillUnmount_without_client i Hc); auto.
Qed.

(** After teardown no call changes the state, the continuation of the fetch
    included: its update is dropped. *)
Lemma fire_unmounted_state (c : Call) (i : Instance) :
  unmounted i = true ->
  state (after (fire c i)) = state i.
Proof.
  intro H. destruct c; destruct_instance i; try discriminate H;
    destruct st as [sc so io cr];
    unfold_methods; cbn; split_ifs; reflexivity.
Qed.

Lemma run_unmounted_state (cs : list Call) (i : Instance) :
  unmounted i = true ->
  unmounted (fst (run cs i)) = true /\ state (fst (run cs i)) = state i.
Proof.
  revert i; induction cs as [|c cs IH]; intros i Hu; cbn.
  - auto.
  - destruct (fire_after_teardown c i Hu) as [F _].
    destruct (IH (after (fire c i)) F) as [IH1 IH2].
    rewrite IH1, IH2, (fire_unmounted_state c i Hu); auto.
Qed.

Lemma run_app (cs1 cs2 : list Call) (i : Instance) :
  fst (run (cs1 ++ cs2) i) = fst (run cs2 (fst (run cs1 i))).
Proof.
  revert i; induction cs1 as [|c cs1 IH]; intro i; cbn.
  - reflexivity.
  - apply IH.
Qed.

Lemma commit_unmounted (i : Instance) :
  unmounted i = true -> state (commit i) = state i.
Proof.
  intro H. unfold commit. destruct (batch i); [rewrite H|]; reflexivity.
Qed.

(** The continuation of the fetch on a mounted component, outside a batch. *)
Lemma onNetInfoFetched_mounted (isConnected : bool) (i : Instance) :
  unmounted i = false ->
  batch i = None ->
  onNetInfoFetched isConnected i =
  mkOutcome (inr tt)
    (mkInstance (props i)
       (mkState (channel (state i)) (negb isConnected) (JsBool isConnected)
                (connectionRecovering (state i)))
       (Some NetInfoUnsubscribeHandle) (_unmounted i) None)
    (notification i isConnected ++ [NetInfoAddEventListener]).
Proof.
  intros Hu Hb.
  unfold onNetInfoFetched, setState, bind, assign, emit.
  rewrite Hu, Hb.
  rewrite notifyChatClient_outcome.
  unfold notification, set_unsubscribeNetInfo, set_state; cbn. rewrite Hb.
  destruct (client (props i)) as [c|]; [destruct (wsConnection c)|];
    reflexivity.
Qed.

(** The continuation of the fetch does not look at the flag: on a component
    that has been torn down it still notifies the client and subscribes the
    listener; only its state update is dropped. *)
Lemma onNetInfoFetched_unmounted (isConnected : bool) (i : Instance) :
  unmounted i = true ->
  onNetInfoFetched isConnected i =
  mkOutcome (inr tt)
    (set_unsubscribeNetInfo (Some NetInfoUnsubscribeHandle) i)
    (notification i isConnected ++ [NetInfoAddEventListener]).
Proof.
  intros Hu.
  unfold onNetInfoFetched, setState, bind, assign, emit.
  rewrite Hu.
  rewrite notifyChatClient_outcome.
  unfold notification; cbn.
  destruct (client (props i)) as [c|]; [destruct (wsConnection c)|];
    reflexivity.
Qed.

Lemma onNetInfoFetched_subscribes (isConnected : bool) (i : Instance) :
  unsubscribeNetInfo (after (onNetInfoFetched isConnected i))
  = Some NetInfoUnsubscribeHandle.
Proof.
  destruct_instance i; destruct isConnected; reflexivity.
Qed.

(** C1: take any execution and any point of it at which
    [componentWillUnmount] has run.  The flag is set from there on, and
    whatever is called later (the three client handlers, the continuation of
    the fetch, the reachability listener, [setActiveChannel], anything else)
    the state stays what it was at teardown: after the later calls, after one
    more call, and after the framework closes a batch that was open. *)
Theorem no_state_mutation_after_teardown (before later : list Call)
    (i : Instance) :
  unmounted (fst (run (before ++ [WillUnmount]) i)) = true
  /\ state (fst (run (before ++ [WillUnmount]) i)) = state (fst (run before i))
  /\ state (fst (run later (fst (run (before ++ [WillUnmount]) i))))
     = state (fst (run before i))
  /\ state (commit (fst (run later (fst (run (before ++ [WillUnmount]) i)))))
     = state (fst (run before i))
  /\ forall c,
       state (after (fire c
                       (fst (run later
                               (fst (run (before ++ [WillUnmount]) i))))))
       = state (fst (run before i)).
Proof.
  rewrite run_app. cbn [run fst fire].
  set (i1 := fst (run before i)).
  destruct (componentWillUnmount_sets_flag i1) as [Hu Hs].
  set (torn := after (componentWillUnmount i1)) in *.
  destruct (run_unmounted_state later torn Hu) as [Hu' Hs'].
  split; [exact Hu|]. split; [exact Hs|]. split; [congruence|].
  split.
  - rewrite (commit_unmounted _ Hu'). congruence.
  - intro c. rewrite (fire_unmounted_state c _ Hu'). congruence.
Qed.

(** C9: as long as the fetch has not resolved, [unsubscribeNetInfo] is still
    [null], whatever else has happened to the constructed component; teardown
    then raises a TypeError at [this.unsubscribeNetInfo()], after it has set
    the flag, and so never reaches the unsubscription or [storage.close()]. *)
Theorem teardown_before_fetch_raises (p : Props) (cs : list Call) :
  result (constructor p) = inr tt ->
  forallb (fun c => negb (is_fetched c)) cs = true ->
  unsubscribeNetInfo (fst (run cs (after (constructor p)))) = None
  /\ result (componentWillUnmount (fst (run cs (after (constructor p)))))
     = inl TypeError
  /\ unmounted
       (after (componentWillUnmount (fst (run cs (after (constructor p))))))
     = true
  /\ ~ In NetInfoUnsubscribe
          (calls (componentWillUnmount
                    (fst (run cs (after (constructor p))))))
  /\ ~ In StorageClose
          (calls (componentWillUnmount
                    (fst (run cs (after (constructor p)))))).
Proof.
  intros Hok Hcs.
  destruct (constructor_success p Hok) as [Hi [c Hc]].
  set (i := fst (run cs (after (constructor p)))).
  assert (Hu : unsubscribeNetInfo i = None).
  { unfold i.
    destruct (run_keeps_mount_fields cs (after (constructor p)) Hcs)
      as [_ ->].
    rewrite Hi; reflexivity. }
  assert (Hcl : has_client i = true).
  { unfold i. rewrite run_has_client, Hi. unfold has_client; cbn.
    rewrite Hc; reflexivity. }
  unfold has_client in Hcl.
  destruct (client (props i)) as [c'|] eqn:Hc'; [|discriminate].
  rewrite (componentWillUnmount_not_subscribed i c' Hc' Hu); cbn.
  repeat split; auto; intros [H|[H|[H|[H|[]]]]]; discriminate.
Qed.

Lemma teardown_before_fetch_raises_witness :
  result (componentWillUnmount
            (fst (run [DidMount; ConnectionChanged false]
                      (after (constructor
                                (sample_props (JsObj LocalStorageClass 3)))))))
  = inl TypeError.
Proof.
  apply (teardown_before_fetch_raises
           (sample_props (JsObj LocalStorageClass 3))
           [DidMount; ConnectionChanged false] eq_refl eq_refl).
Defined.

(** ** The reachability listener *)

Lemma onNetInfoChanged_started_offline (i : Instance) (c : Client) :
  client (props i) = Some c ->
  startedOffline (state i) = true ->
  onNetInfoChanged true i = mkOutcome (inr tt) i [ClientSetupConnection].
Proof.
  intros Hc Hs.
  unfold onNetInfoChanged, on_client, bind, this, emit; cbn.
  rewrite Hs; cbn. rewrite Hc; reflexivity.
Qed.

Lemma onNetInfoChanged_started_online (isConnected : bool) (i : Instance) :
  startedOffline (state i) = false ->
  onNetInfoChanged isConnected i =
  mkOutcome (inr tt) i (notification i isConnected).
Proof.
  intro Hs.
  unfold onNetInfoChanged, bind, this; cbn.
  rewrite Hs, andb_false_r, notifyChatClient_outcome; reflexivity.
Qed.

(** C5: when the fetch resolves to [false] on a constructed component that
    has not been torn down, the state gets [startedOffline = true] and
    [isOnline = false]; whatever happens next (the fetch resolves once), a
    reachability change to [true] calls [client._setupConnection()] and
    sends no status notification. *)
Theorem started_offline_sets_up_connection (p : Props)
    (before later : list Call) :
  result (constructor p) = inr tt ->
  forallb (fun c => negb (is_unmount c)) before = true ->
  forallb (fun c => negb (is_fetched c)) later = true ->
  let i1 := after (fire (NetInfoFetched false)
                        (fst (run before (after (constructor p))))) in
  let i2 := fst (run later i1) in
  startedOffline (state i1) = true
  /\ isOnline (state i1) = JsBool false
  /\ result (fire (NetInfoChanged true) i2) = inr tt
  /\ calls (fire (NetInfoChanged true) i2) = [ClientSetupConnection].
Proof.
  intros Hok Hb Hl i1 i2.
  destruct (constructor_success p Hok) as [Hi [c Hc]].
  assert (H0 : unmounted (after (constructor p)) = false
               /\ batch (after (constructor p)) = None)
    by (rewrite Hi; split; reflexivity).
  destruct H0 as [Hu0 Hb0].
  destruct (run_stays_mounted before _ Hu0 Hb0 Hb) as [Hu Hbt].
  assert (H1 : startedOffline (state i1) = true
               /\ isOnline (state i1) = JsBool false).
  { unfold i1; cbn [fire].
    rewrite (onNetInfoFetched_mounted false _ Hu Hbt); cbn; auto. }
  assert (Hs : startedOffline (state i2) = true).
  { unfold i2. destruct (run_keeps_mount_fields later i1 Hl) as [-> _].
    apply H1. }
  assert (Hcl : has_client i2 = true).
  { unfold i2, i1. rewrite run_has_client, fire_has_client, run_has_client, Hi.
    unfold has_client; cbn. rewrite Hc; reflexivity. }
  unfold has_client in Hcl.
  destruct (client (props i2)) as [c'|] eqn:Hc'; [|discriminate].
  cbn [fire]. rewrite (onNetInfoChanged_started_offline i2 c' Hc' Hs); cbn.
  destruct H1; auto.
Qed.

Lemma started_offline_sets_up_connection_witness :
  calls (fire (NetInfoChanged true)
           (fst (run [NetInfoChanged false; ConnectionChanged false]
                   (after (fire (NetInfoFetched false)
                             (fst (run [DidMount]
                                     (after (constructor
                                               (sample_props JsUndefined))))))))))
  = [ClientSetupConnection].
Proof.
  apply (started_offline_sets_up_connection (sample_props JsUndefined)
           [DidMount] [NetInfoChanged false; ConnectionChanged false]
           eq_refl eq_refl eq_refl).
Defined.

Lemma fire_started_online (c : Call) (i : Instance) :
  startedOffline (state i) = false ->
  ~ In ClientSetupConnection (calls (fire c i)).
Proof.
  intro H. destruct c; destruct_instance i; destruct st as [sc so io cr];
    cbn in H; subst so; unfold_methods; cbn; split_ifs;
    intuition discriminate.
Qed.

Lemma run_started_online (cs : list Call) (i : Instance) :
  startedOffline (state i) = false ->
  forallb (fun c => negb (is_fetched c)) cs = true ->
  ~ In ClientSetupConnection (snd (run cs i)).
Proof.
  revert i; induction cs as [|c cs IH]; intros i Hs H; cbn in *.
  - auto.
  - apply andb_prop in H as [Hc Hcs].
    apply negb_true_iff in Hc.
    intro Hin. apply in_app_or in Hin as [Hin|Hin].
    + exact (fire_started_online c i Hs Hin).
    + destruct (fire_keeps_mount_fields c i Hc) as [F _].
      apply (IH (after (fire c i))); auto. congruence.
Qed.

Lemma run_reachability_changes (bs : list bool) (i : Instance) :
  startedOffline (state i) = false ->
  run (map NetInfoChanged bs) i = (i, flat_map (notification i) bs).
Proof.
  intro Hs. induction bs as [|b bs IH]; cbn [map run flat_map fire].
  - reflexivity.
  - rewrite (onNetInfoChanged_started_online b i Hs); cbn [after calls].
    rewrite IH; reflexivity.
Qed.

(** C6: when the fetch resolves to [true] on a constructed component that
    has not been torn down, the state gets [startedOffline = false]; no
    later sequence of calls (the fetch resolves once) makes the component
    call [client._setupConnection()], and a sequence of reachability changes
    sends exactly the status notification of each change, in order. *)
Theorem started_online_only_notifies (p : Props) (before later : list Call)
    (changes : list bool) :
  result (constructor p) = inr tt ->
  forallb (fun c => negb (is_unmount c)) before = true ->
  forallb (fun c => negb (is_fetched c)) later = true ->
  let i1 := after (fire (NetInfoFetched true)
                        (fst (run before (after (constructor p))))) in
  startedOffline (state i1) = false
  /\ ~ In ClientSetupConnection (snd (run later i1))
  /\ snd (run (map NetInfoChanged changes) i1)
     = flat_map (notification i1) changes
  /\ fst (run (map NetInfoChanged changes) i1) = i1.
Proof.
  intros Hok Hb Hl i1.
  destruct (constructor_success p Hok) as [Hi _].
  assert (H0 : unmounted (after (constructor p)) = false
               /\ batch (after (constructor p)) = None)
    by (rewrite Hi; split; reflexivity).
  destruct H0 as [Hu0 Hb0].
  destruct (run_stays_mounted before _ Hu0 Hb0 Hb) as [Hu Hbt].
  assert (Hs : startedOffline (state i1) = false).
  { unfold i1; cbn [fire].
    rewrite (onNetInfoFetched_mounted true _ Hu Hbt); reflexivity. }
  split; [exact Hs|]. split; [exact (run_started_online later i1 Hs Hl)|].
  rewrite (run_reachability_changes changes i1 Hs); auto.
Qed.

Lemma started_online_only_notifies_witness :
  snd (run (map NetInfoChanged [false; true])
         (after (fire (NetInfoFetched true)
                   (fst (run [DidMount; ConnectionEstablished]
                           (after (constructor
                                     (sample_props JsUndefined))))))))
  = [OnlineStatusChanged 2 "offline"; OnlineStatusChanged 2 "online"].
Proof.
  apply (started_online_only_notifies (sample_props JsUndefined)
           [DidMount; ConnectionEstablished]
           [NetInfoChanged false; NetInfoChanged true] [false; true]
           eq_refl eq_refl eq_refl).
Defined.

(** ** connectionRecovering *)

Lemma recovering_after_true (e : option Call) :
  recovering_after e = true <-> e = Some (ConnectionChanged false).
Proof.
  split.
  - destruct e as [[[|]| | | | | | | | | |]|]; cbn; intro H;
      try discriminate H; reflexivity.
  - intros ->; reflexivity.
Qed.

Lemma fire_before_teardown (c : Call) (i : Instance) :
  unmounted i = false ->
  batch i = None ->
  is_unmount c = false ->
  unmounted (after (fire c i)) = false
  /\ batch (after (fire c i)) = None
  /\ connectionRecovering (state (after (fire c i)))
     = if is_connectivity_event c then recovering_after (Some c)
       else connectionRecovering (state i).
Proof.
  intros Hu Hb Hc. destruct c; try discriminate Hc;
    destruct_instance i; try discriminate Hu; try discriminate Hb;
    destruct st as [sc so io cr];
    unfold_methods; cbn; split_ifs; auto.
Qed.

Lemma run_before_teardown (cs : list Call) (i : Instance)
    (acc : option Call) :
  unmounted i = false ->
  batch i = None ->
  forallb (fun c => negb (is_unmount c)) cs = true ->
  connectionRecovering (state i) = recovering_after acc ->
  unmounted (fst (run cs i)) = false
  /\ batch (fst (run cs i)) = None
  /\ connectionRecovering (state (fst (run cs i)))
     = recovering_after (most_recent_event cs acc).
Proof.
  revert i acc; induction cs as [|c cs IH]; intros i acc Hu Hb H Hr;
    cbn in *.
  - auto.
  - apply andb_prop in H as [Hc Hcs].
    apply negb_true_iff in Hc.
    destruct (fire_before_teardown c i Hu Hb Hc) as [F1 [F2 F3]].
    apply (IH (after (fire c i))); auto.
    rewrite F3. destruct (is_connectivity_event c); auto.
Qed.

(** C3: after any sequence of calls on a constructed component in which
    teardown does not occur, [connectionRecovering] is true exactly when the
    most recent of the client's connectivity events is 'connection.changed'
    with [online = false]; and from there each connectivity event sets it:
    to false for 'connection.established', 'connection.recovered' and
    'connection.changed' with [online = true], to true for
    'connection.changed' with [online = false]. *)
Theorem connectionRecovering_tracks_last_event (p : Props) (cs : list Call) :
  result (constructor p) = inr tt ->
  forallb (fun c => negb (is_unmount c)) cs = true ->
  (connectionRecovering (state (fst (run cs (after (constructor p))))) = true
   <-> most_recent_event cs None = Some (ConnectionChanged false))
  /\ connectionRecovering
       (state (after (fire ConnectionEstablished
                        (fst (run cs (after (constructor p))))))) = false
  /\ connectionRecovering
       (state (after (fire ConnectionRecovered
                        (fst (run cs (after (constructor p))))))) = false
  /\ forall online,
       connectionRecovering
         (state (after (fire (ConnectionChanged online)
                          (fst (run cs (after (constructor p)))))))
       = negb online.
Proof.
  intros Hok Hcs.
  destruct (constructor_success p Hok) as [Hi _].
  assert (H0 : unmounted (after (constructor p)) = false)
    by (rewrite Hi; reflexivity).
  assert (Hr : connectionRecovering (state (after (constructor p)))
               = recovering_after None) by (rewrite Hi; reflexivity).
  assert (Hb0 : batch (after (constructor p)) = None)
    by (rewrite Hi; reflexivity).
  destruct (run_before_teardown cs _ None H0 Hb0 Hcs Hr) as [Hu [Hb Hrec]].
  split.
  - rewrite Hrec. apply recovering_after_true.
  - set (i := fst (run cs (after (constructor p)))) in *.
    split; [|split].
    + destruct (fire_before_teardown ConnectionEstablished i Hu Hb eq_refl)
        as [_ [_ ->]]; reflexivity.
    + destruct (fire_before_teardown ConnectionRecovered i Hu Hb eq_refl)
        as [_ [_ ->]]; reflexivity.
    + intro online.
      destruct (fire_before_teardown (ConnectionChanged online) i Hu Hb
                  eq_refl) as [_ [_ ->]]; destruct online; reflexivity.
Qed.

Lemma connectionRecovering_tracks_last_event_witness :
  connectionRecovering
    (state (fst (run [DidMount; ConnectionEstablished; NetInfoFetched true;
                      ConnectionChanged false; SetActiveChannel JsNull]
                     (after (constructor (sample_props JsUndefined))))))
  = true.
Proof.
  apply (proj1 (connectionRecovering_tracks_last_event
                  (sample_props JsUndefined)
                  [DidMount; ConnectionEstablished; NetInfoFetched true;
                   ConnectionChanged false; SetActiveChannel JsNull]
                  eq_refl eq_refl)).
  reflexivity.
Defined.

(** * Further properties of the component *)

(** ** Construction *)

Lemma instanceofLocalStorage_truthy (v : JsVal) :
  instanceofLocalStorage v = true -> truthy v = true.
Proof.
  destruct v as [| |b|n| |s|[|] r]; cbn; intro H; try discriminate H;
    reflexivity.
Qed.

Lemma isOfflineModeEnabled_truthy (i : Instance) :
  truthy (isOfflineModeEnabled i) = instanceofLocalStorage (storage (props i)).
Proof.
  unfold isOfflineModeEnabled, js_and.
  destruct (truthy (storage (props i))) eqn:Ht.
  - reflexivity.
  - rewrite Ht.
    destruct (instanceofLocalStorage (storage (props i))) eqn:Hi;
      [|reflexivity].
    apply instanceofLocalStorage_truthy in Hi. congruence.
Qed.

(** The constructor returns normally exactly when the client is there and
    the storage is falsy or a LocalStorage instance; it raises a TypeError
    exactly when the client is missing, whatever the storage is, and the
    invalid storage error in the remaining case. *)
Theorem constructor_outcomes (p : Props) :
  (result (constructor p) = inr tt
   <-> client p <> None
       /\ (truthy (storage p) = false
           \/ instanceofLocalStorage (storage p) = true))
  /\ (result (constructor p) = inl TypeError <-> client p = None)
  /\ (result (constructor p) = inl invalid_storage
      <-> client p <> None
          /\ truthy (storage p) = true
          /\ instanceofLocalStorage (storage p) = false).
Proof.
  destruct (client p) as [c|] eqn:Hc.
  - destruct (truthy (storage p)) eqn:Ht.
    + destruct (instanceofLocalStorage (storage p)) eqn:Hi.
      * rewrite (constructor_local_storage p c Hc Ht Hi); cbn.
        repeat split; try discriminate; auto;
          intros; intuition discriminate.
      * rewrite (constructor_invalid_storage p c Hc Ht Hi); cbn.
        repeat split; try discriminate; auto;
          intros; intuition discriminate.
    + assert (Hi : instanceofLocalStorage (storage p) = false).
      { destruct (instanceofLocalStorage (storage p)) eqn:Hi; [|reflexivity].
        apply instanceofLocalStorage_truthy in Hi. congruence. }
      rewrite (constructor_falsy_storage p c Hc Ht); cbn.
      repeat split; try discriminate; auto;
        intros; intuition discriminate.
  - rewrite (constructor_without_client p Hc); cbn.
    repeat split; try discriminate; auto; intros; intuition discriminate.
Qed.

(** ** Teardown *)

(** Teardown of a component whose reachability listener is subscribed
    returns normally, sets the flag, leaves the state alone and makes these
    calls in this order; [storage.close()] comes last and is made once,
    exactly when the storage is a LocalStorage instance. *)
Theorem teardown_after_fetch (i : Instance) (c : Client) (u : Unsubscribe) :
  client (props i) = Some c ->
  unsubscribeNetInfo i = Some u ->
  result (componentWillUnmount i) = inr tt
  /\ unmounted (after (componentWillUnmount i)) = true
  /\ state (after (componentWillUnmount i)) = state i
  /\ calls (componentWillUnmount i) =
       [LoggerCall "Chat component" "componentWillUnmount";
        ClientOff (JsStr "connection.recovered");
        ClientOff (JsStr "connection.changed");
        ClientOff JsUndefined;
        NetInfoUnsubscribe]
       ++ (if instanceofLocalStorage (storage (props i))
           then [StorageClose] else []).
Proof.
  intros Hc Hu.
  rewrite (componentWillUnmount_subscribed i c u Hc Hu); cbn.
  rewrite isOfflineModeEnabled_truthy. repeat split.
Qed.

Lemma teardown_after_fetch_witness :
  calls (componentWillUnmount
           (mkInstance (sample_props (JsObj LocalStorageClass 3))
                       initial_state (Some NetInfoUnsubscribeHandle)
                       (Some false) None))
  = teardown_prefix ++ [NetInfoUnsubscribe; StorageClose].
Proof.
  apply (teardown_after_fetch
           (mkInstance (sample_props (JsObj LocalStorageClass 3))
                       initial_state (Some NetInfoUnsubscribeHandle)
                       (Some false) None)
           sample_client NetInfoUnsubscribeHandle eq_refl eq_refl).
Defined.

Lemma fire_keeps_subscription (c : Call) (i : Instance) :
  unsubscribeNetInfo i <> None ->
  unsubscribeNetInfo (after (fire c i)) <> None.
Proof.
  intro H. destruct c; destruct_instance i; try (exfalso; apply H; reflexivity);
    destruct st as [sc so io cr]; unfold_methods; cbn; split_ifs;
    discriminate.
Qed.

Lemma run_keeps_subscription (cs : list Call) (i : Instance) :
  unsubscribeNetInfo i <> None ->
  unsubscribeNetInfo (fst (run cs i)) <> None.
Proof.
  revert i; induction cs as [|c cs IH]; intros i H; cbn.
  - exact H.
  - apply IH, fire_keeps_subscription, H.
Qed.

Lemma run_subscribes (cs : list Call) (i : Instance) :
  existsb is_fetched cs = true ->
  unsubscribeNetInfo (fst (run cs i)) <> None.
Proof.
  revert i; induction cs as [|c cs IH]; intros i H; cbn in *.
  - discriminate H.
  - destruct (is_fetched c) eqn:Hc.
    + apply run_keeps_subscription.
      destruct c; try discriminate Hc. cbn [fire].
      rewrite onNetInfoFetched_subscribes. discriminate.
    + apply IH. exact H.
Qed.

Lemma not_existsb_fetched (cs : list Call) :
  existsb is_fetched cs = false ->
  forallb (fun c => negb (is_fetched c)) cs = true.
Proof.
  induction cs as [|c cs IH]; cbn; intro H.
  - reflexivity.
  - apply orb_false_iff in H as [-> H]. cbn. auto.
Qed.

(** On a constructed component, whatever has happened to it, teardown
    returns normally exactly when the fetch has resolved before. *)
Theorem teardown_returns_iff_fetched (p : Props) (cs : list Call) :
  result (constructor p) = inr tt ->
  (result (componentWillUnmount (fst (run cs (after (constructor p)))))
   = inr tt
   <-> existsb is_fetched cs = true).
Proof.
  intro Hok.
  destruct (constructor_success p Hok) as [Hi [c Hc]].
  set (i := fst (run cs (after (constructor p)))).
  assert (Hcl : has_client i = true).
  { unfold i. rewrite run_has_client, Hi. unfold has_client; cbn.
    rewrite Hc; reflexivity. }
  unfold has_client in Hcl.
  destruct (client (props i)) as [c'|] eqn:Hc'; [|discriminate].
  destruct (existsb is_fetched cs) eqn:He.
  - pose proof (run_subscribes cs (after (constructor p)) He) as Hs.
    fold i in Hs.
    destruct (unsubscribeNetInfo i) as [u|] eqn:Hu; [|congruence].
    rewrite (componentWillUnmount_subscribed i c' u Hc' Hu); cbn.
    split; auto.
  - apply not_existsb_fetched in He.
    assert (Hu : unsubscribeNetInfo i = None).
    { unfold i.
      destruct (run_keeps_mount_fields cs (after (constructor p)) He)
        as [_ ->].
      rewrite Hi; reflexivity. }
    rewrite (componentWillUnmount_not_subscribed i c' Hc' Hu); cbn.
    split; discriminate.
Qed.

Lemma teardown_returns_iff_fetched_witness :
  result (componentWillUnmount
            (fst (run [DidMount; NetInfoFetched false; ConnectionChanged true]
                      (after (constructor (sample_props JsUndefined))))))
  = inr tt.
Proof.
  apply (teardown_returns_iff_fetched (sample_props JsUndefined)
           [DidMount; NetInfoFetched false; ConnectionChanged true] eq_refl).
  reflexivity.
Defined.

(** ** After teardown *)

Lemma run_keeps_flag (cs : list Call) (i : Instance) :
  unmounted i = true -> unmounted (fst (run cs i)) = true.
Proof.
  revert i; induction cs as [|c cs IH]; intros i H; cbn.
  - exact H.
  - apply IH. apply (fire_after_teardown c i H).
Qed.

(** Teardown is final: once the flag is set no call clears it, the
    continuation of the fetch, a second teardown and a call that raises
    included. *)
Theorem teardown_is_final (cs before : list Call) (i : Instance) :
  unmounted (fst (run (before ++ WillUnmount :: cs) i)) = true.
Proof.
  revert i; induction before as [|c before IH]; intro i.
  - cbn [app run fst]. apply run_keeps_flag.
    cbn [fire].
    destruct (client (props i)) as [c|] eqn:Hc.
    + destruct (unsubscribeNetInfo i) as [u|] eqn:Hu.
      * rewrite (componentWillUnmount_subscribed i c u Hc Hu); reflexivity.
      * rewrite (componentWillUnmount_not_subscribed i c Hc Hu); reflexivity.
    + rewrite (componentWillUnmount_without_client i Hc); reflexivity.
  - cbn [app run fst]. apply IH.
Qed.

(** After teardown the three client handlers, the reachability listener,
    [setActiveChannel] and the lifecycle methods leave the state as it is:
    the context published after any sequence of them has the channel,
    [isOnline] and [connectionRecovering] it had at teardown. *)
Theorem guarded_calls_after_teardown (cs : list Call) (i : Instance) :
  unmounted i = true ->
  forallb (fun c => negb (is_fetched c)) cs = true ->
  state (fst (run cs i)) = state i
  /\ ctx_channel (getContext (fst (run cs i))) = channel (state i)
  /\ ctx_isOnline (getContext (fst (run cs i))) = isOnline (state i)
  /\ ctx_connectionRecovering (getContext (fst (run cs i)))
     = connectionRecovering (state i).
Proof.
  intros Hu Hcs.
  destruct (run_after_teardown cs i Hu Hcs) as [_ Hs].
  unfold getContext; cbn. rewrite Hs. repeat split.
Qed.

Lemma guarded_calls_after_teardown_witness :
  state (fst (run [ConnectionChanged false; SetActiveChannel JsNull;
                   ConnectionEstablished; NetInfoChanged true]
                  sample_unmounted))
  = initial_state.
Proof.
  apply (guarded_calls_after_teardown
           [ConnectionChanged false; SetActiveChannel JsNull;
            ConnectionEstablished; NetInfoChanged true]
           sample_unmounted eq_refl eq_refl).
Defined.

(** ** What the context shows before teardown *)

Lemma fire_mounted_state (c : Call) (i : Instance) :
  unmounted i = false ->
  batch i = None ->
  is_unmount c = false ->
  channel (state (after (fire c i))) = last_channel [c] (channel (state i))
  /\ isOnline (state (after (fire c i))) = online_after c (isOnline (state i)).
Proof.
  intros Hu Hb Hc. destruct c; try discriminate Hc;
    destruct_instance i; try discriminate Hu; try discriminate Hb;
    destruct st as [sc so io cr];
    unfold_methods; cbn; split_ifs; auto.
Qed.

Lemma last_channel_cons (c : Call) (cs : list Call) (acc : JsVal) :
  last_channel (c :: cs) acc = last_channel cs (last_channel [c] acc).
Proof.
  destruct c; reflexivity.
Qed.

Lemma run_mounted_state (cs : list Call) (i : Instance) :
  unmounted i = false ->
  batch i = None ->
  forallb (fun c => negb (is_unmount c)) cs = true ->
  channel (state (fst (run cs i))) = last_channel cs (channel (state i))
  /\ isOnline (state (fst (run cs i))) = last_online cs (isOnline (state i)).
Proof.
  revert i; induction cs as [|c cs IH]; intros i Hu Hb H.
  - cbn; auto.
  - cbn [forallb] in H. apply andb_prop in H as [Hc Hcs].
    apply negb_true_iff in Hc.
    destruct (fire_before_teardown c i Hu Hb Hc) as [Hu' [Hb' _]].
    destruct (fire_mounted_state c i Hu Hb Hc) as [F1 F2].
    destruct (IH (after (fire c i)) Hu' Hb' Hcs) as [IH1 IH2].
    cbn [run fst last_online]. rewrite last_channel_cons, IH1, IH2, F1, F2.
    auto.
Qed.

(** The channel is replaced wholesale and the last call wins: before
    teardown the context's channel is the argument of the most recent
    [setActiveChannel], the empty object [{}] when there was none; no other
    call touches it. *)
Theorem channel_is_last_set (p : Props) (cs : list Call) :
  result (constructor p) = inr tt ->
  forallb (fun c => negb (is_unmount c)) cs = true ->
  ctx_channel (getContext (fst (run cs (after (constructor p)))))
  = last_channel cs empty_object.
Proof.
  intros Hok Hcs.
  destruct (constructor_success p Hok) as [Hi _].
  assert (H0 : unmounted (after (constructor p)) = false)
    by (rewrite Hi; reflexivity).
  assert (Hb0 : batch (after (constructor p)) = None)
    by (rewrite Hi; reflexivity).
  destruct (run_mounted_state cs _ H0 Hb0 Hcs) as [H _].
  unfold getContext; cbn [ctx_channel]. rewrite H, Hi. reflexivity.
Qed.

Lemma channel_is_last_set_witness :
  ctx_channel
    (getContext
       (fst (run [SetActiveChannel (JsObj PlainClass 4); ConnectionChanged true;
                  SetActiveChannel (JsObj PlainClass 9); Render]
                 (after (constructor (sample_props JsUndefined))))))
  = JsObj PlainClass 9.
Proof.
  apply (channel_is_last_set (sample_props JsUndefined)
           [SetActiveChannel (JsObj PlainClass 4); ConnectionChanged true;
            SetActiveChannel (JsObj PlainClass 9); Render]
           eq_refl eq_refl).
Defined.

(** Before teardown the context's [isOnline] is what the most recent of
    these reported: a 'connection.changed' event (its [online]), a
    'connection.established' or 'connection.recovered' event ([true]), the
    resolved fetch (its reachability); it is 'unknown' until the first of
    them.  Reachability changes after the fetch do not update it. *)
Theorem isOnline_is_last_report (p : Props) (cs : list Call) :
  result (constructor p) = inr tt ->
  forallb (fun c => negb (is_unmount c)) cs = true ->
  ctx_isOnline (getContext (fst (run cs (after (constructor p)))))
  = last_online cs (JsStr "unknown").
Proof.
  intros Hok Hcs.
  destruct (constructor_success p Hok) as [Hi _].
  assert (H0 : unmounted (after (constructor p)) = false)
    by (rewrite Hi; reflexivity).
  assert (Hb0 : batch (after (constructor p)) = None)
    by (rewrite Hi; reflexivity).
  destruct (run_mounted_state cs _ H0 Hb0 Hcs) as [_ H].
  unfold getContext; cbn [ctx_isOnline]. rewrite H, Hi. reflexivity.
Qed.

Lemma isOnline_is_last_report_witness :
  ctx_isOnline
    (getContext
       (fst (run [DidMount; NetInfoFetched true; NetInfoChanged false]
                 (after (constructor (sample_props JsUndefined))))))
  = JsBool true.
Proof.
  apply (isOnline_is_last_report (sample_props JsUndefined)
           [DidMount; NetInfoFetched true; NetInfoChanged false]
           eq_refl eq_refl).
Defined.

(** ** connectionRecovering and isOnline together *)

Lemma fire_recovering_implies_offline (c : Call) (i : Instance) :
  is_fetched_online c = false ->
  recovering_implies_offline (state i) ->
  recovering_implies_offline (state (after (fire c i))).
Proof.
  unfold recovering_implies_offline.
  intros Hc. destruct c as [[|]| | |[|]| | | | | | |];
    try discriminate Hc; clear Hc;
    destruct_instance i; destruct st as [sc so io cr];
    unfold_methods; cbn; split_ifs; intros Hinv H;
    try discriminate H; auto.
Qed.

Lemma run_recovering_implies_offline (cs : list Call) (i : Instance) :
  forallb (fun c => negb (is_fetched_online c)) cs = true ->
  recovering_implies_offline (state i) ->
  recovering_implies_offline (state (fst (run cs i))).
Proof.
  revert i; induction cs as [|c cs IH]; intros i H Hinv; cbn in *.
  - exact Hinv.
  - apply andb_prop in H as [Hc Hcs].
    apply negb_true_iff in Hc.
    apply IH; auto. apply fire_recovering_implies_offline; auto.
Qed.

(** As long as the fetch does not resolve to [true], a constructed component
    is recovering only while it is offline: whenever
    [connectionRecovering] is true, [isOnline] is [false].  Teardown and
    late calls keep it so. *)
Theorem recovering_only_while_offline (p : Props) (cs : list Call) :
  result (constructor p) = inr tt ->
  forallb (fun c => negb (is_fetched_online c)) cs = true ->
  connectionRecovering (state (fst (run cs (after (constructor p))))) = true ->
  isOnline (state (fst (run cs (after (constructor p))))) = JsBool false.
Proof.
  intros Hok Hcs.
  destruct (constructor_success p Hok) as [Hi _].
  apply (run_recovering_implies_offline cs (after (constructor p)) Hcs).
  rewrite Hi. intro H; discriminate H.
Qed.

Lemma recovering_only_while_offline_witness :
  isOnline
    (state (fst (run [DidMount; NetInfoFetched false; ConnectionEstablished;
                      ConnectionChanged false; NetInfoChanged true]
                     (after (constructor (sample_props JsUndefined))))))
  = JsBool false.
Proof.
  apply (recovering_only_while_offline (sample_props JsUndefined)
           [DidMount; NetInfoFetched false; ConnectionEstablished;
            ConnectionChanged false; NetInfoChanged true]
           eq_refl eq_refl eq_refl).
Defined.

(** ** startedOffline is never reset *)

Lemma onNetInfoChanged_offline (i : Instance) :
  onNetInfoChanged false i = mkOutcome (inr tt) i (notification i false).
Proof.
  unfold onNetInfoChanged, bind, this. cbn [andb].
  rewrite notifyChatClient_outcome. reflexivity.
Qed.

(** A session that started offline stays in that mode: the listener does not
    change the instance, so every reachability change to [true], not only
    the first, calls [client._setupConnection()], and every change to
    [false] sends the "offline" notification. *)
Theorem started_offline_every_reconnect (i : Instance) (c : Client)
    (changes : list bool) :
  client (props i) = Some c ->
  startedOffline (state i) = true ->
  run (map NetInfoChanged changes) i
  = (i, flat_map (started_offline_calls i) changes).
Proof.
  intros Hc Hs. induction changes as [|b bs IH];
    cbn [map run flat_map fire].
  - reflexivity.
  - destruct b.
    + rewrite (onNetInfoChanged_started_offline i c Hc Hs); cbn [after calls].
      rewrite IH; reflexivity.
    + rewrite (onNetInfoChanged_offline i); cbn [after calls].
      rewrite IH; reflexivity.
Qed.

Lemma started_offline_every_reconnect_witness :
  snd (run (map NetInfoChanged [true; false; true])
           (after (fire (NetInfoFetched false) sample_mounted)))
  = [ClientSetupConnection; OnlineStatusChanged 2 "offline";
     ClientSetupConnection].
Proof.
  exact (f_equal snd
           (started_offline_every_reconnect
              (after (fire (NetInfoFetched false) sample_mounted))
              sample_client [true; false; true] eq_refl eq_refl)).
Defined.

(** ** Logging *)

(** Each lifecycle method, [render] and [setActiveChannel] call the logger
    exactly once, also when they go on to raise or to do nothing after
    teardown; the client handlers, the continuation of the fetch and the
    reachability listener never call it. *)
Theorem one_logger_call_per_method (c : Call) (i : Instance) :
  logger_calls (calls (fire c i)) = if is_logged c then 1 else 0.
Proof.
  destruct c; destruct_instance i; destruct st as [sc so io cr];
    unfold_methods; cbn; split_ifs; reflexivity.
Qed.

(** ** Props *)

Lemma fire_keeps_props (c : Call) (i : Instance) :
  storage (props (after (fire c i))) = storage (props i)
  /\ logger (props (after (fire c i))) = logger (props i)
  /\ option_map client_ref (client (props (after (fire c i))))
     = option_map client_ref (client (props i)).
Proof.
  destruct c; destruct_instance i; destruct st as [sc so io cr];
    unfold_methods; cbn; split_ifs; auto.
Qed.

Lemma run_keeps_props (cs : list Call) (i : Instance) :
  storage (props (fst (run cs i))) = storage (props i)
  /\ logger (props (fst (run cs i))) = logger (props i)
  /\ option_map client_ref (client (props (fst (run cs i))))
     = option_map client_ref (client (props i)).
Proof.
  revert i; induction cs as [|c cs IH]; intro i; cbn.
  - auto.
  - destruct (IH (after (fire c i))) as [-> [-> ->]].
    apply fire_keeps_props.
Qed.

(** No method writes to the props: through any sequence of calls the context
    keeps the same storage, logger and client, so [offlineMode] is fixed when
    the component is constructed. *)
Theorem offlineMode_is_fixed (cs : list Call) (i : Instance) :
  ctx_offlineMode (getContext (fst (run cs i)))
  = ctx_offlineMode (getContext i)
  /\ ctx_storage (getContext (fst (run cs i))) = ctx_storage (getContext i)
  /\ ctx_logger (getContext (fst (run cs i))) = ctx_logger (getContext i)
  /\ option_map client_ref (ctx_client (getContext (fst (run cs i))))
     = option_map client_ref (ctx_client (getContext i)).
Proof.
  destruct (run_keeps_props cs i) as [Hs [Hl Hc]].
  unfold getContext, isOfflineModeEnabled;
    cbn [ctx_offlineMode ctx_storage ctx_logger ctx_client].
  rewrite Hs, Hl, Hc. repeat split.
Qed.

(** ** The fetch resolving after teardown *)

(** When the fetch resolves on a component that has been torn down, the
    continuation returns normally and the state is not changed, but it still
    sends the status notification and subscribes the reachability listener,
    which teardown can no longer unsubscribe.  If the state still has its
    initial [startedOffline = true], that listener answers a change to
    reachable with [client._setupConnection()], whatever the fetch had
    resolved to. *)
Theorem late_fetch_continuation_subscribes (isConnected : bool)
    (i : Instance) (c : Client) :
  unmounted i = true ->
  client (props i) = Some c ->
  result (fire (NetInfoFetched isConnected) i) = inr tt
  /\ state (after (fire (NetInfoFetched isConnected) i)) = state i
  /\ calls (fire (NetInfoFetched isConnected) i)
     = notification i isConnected ++ [NetInfoAddEventListener]
  /\ unsubscribeNetInfo (after (fire (NetInfoFetched isConnected) i))
     = Some NetInfoUnsubscribeHandle
  /\ (startedOffline (state i) = true ->
      calls (fire (NetInfoChanged true)
               (after (fire (NetInfoFetched isConnected) i)))
      = [ClientSetupConnection]).
Proof.
  intros Hu Hc. cbn [fire].
  rewrite (onNetInfoFetched_unmounted isConnected i Hu); cbn [result after calls].
  repeat split.
  intro Hs.
  rewrite (onNetInfoChanged_started_offline
             (set_unsubscribeNetInfo (Some NetInfoUnsubscribeHandle) i) c
             Hc Hs).
  reflexivity.
Qed.

Lemma late_fetch_continuation_subscribes_witness :
  calls (fire (NetInfoFetched true)
           (fst (run [DidMount; WillUnmount]
                   (after (constructor (sample_props JsUndefined))))))
  = [OnlineStatusChanged 2 "online"; NetInfoAddEventListener].
Proof.
  apply (late_fetch_continuation_subscribes true
           (fst (run [DidMount; WillUnmount]
                   (after (constructor (sample_props JsUndefined)))))
           sample_client eq_refl eq_refl).
Defined.
